(** * use-next-route: the [useRoute] hook of [src/index.tsx]

    A shallow embedding of the hook and of the helpers it is built from
    ([parseRoute], [getUrlObjects], [urlObjectToString], [wantsNewTab],
    [useRouterContext], [usePrefetch], [onClick], [navigate]), followed by
    the properties of the route resolution and of the navigation dispatch.

    JavaScript values are kept as the code has them: an optional field is an
    [option], a value whose truthiness the code tests is a [JsValue], and the
    calls the hook makes on its collaborators (the click event, the Next
    router, the window and the document) are recorded, in order, in a trace
    of [Effect]s. *)

From Stdlib Require Import String Ascii List ZArith Bool Lia.
Import ListNotations.

Local Open Scope string_scope.
Local Open Scope Z_scope.

(** * JavaScript values *)

Module Js.

(** The values that reach the hook: [undefined], [null], booleans, integral
    numbers, strings and arrays of these (the values of a query object). *)
#[warnings="-register-all"] Inductive JsValue : Type :=
| JsUndefined
| JsNull
| JsBool (b : bool)
| JsNumber (z : Z)
| JsString (s : string)
| JsArray (items : list JsValue).

(** ToBoolean: an array and any object is truthy, the empty string is not. *)
Definition truthy (v : JsValue) : bool :=
  match v with
  | JsUndefined | JsNull => false
  | JsBool b => b
  | JsNumber z => negb (z =? 0)
  | JsString s => negb (s =? "")%string
  | JsArray _ => true
  end.

(** An optional string property read as a value. *)
Definition ofOptString (o : option string) : JsValue :=
  match o with
  | Some s => JsString s
  | None => JsUndefined
  end.

(** [s.startsWith(searchString)]. *)
Definition startsWith (s searchString : string) : bool :=
  String.prefix searchString s.

(** [s.indexOf(searchString)]: the first position of [searchString] in [s],
    or [-1]. *)
Definition indexOf (s searchString : string) : Z :=
  match String.index 0 searchString s with
  | Some n => Z.of_nat n
  | None => -1
  end.

(** A settled promise. *)
Inductive Settled (A : Type) : Type :=
| Fulfilled (value : A)
| Rejected (reason : string).

Arguments Fulfilled {A} value.
Arguments Rejected {A} reason.

End Js.

Import Js.

(** * Data model (lines 7-31 of [src/index.tsx]) *)

(** [type Query = { [key: string]: any }]: the own properties of the object,
    in insertion order. *)
Definition Query : Type := list (string * JsValue).

(** [type UrlObject = { pathname: string, query?: Query }]. *)
Record UrlObject : Type := mkUrl {
  pathname : string;
  query : option Query
}.

(** The argument type [UrlObject | string]. *)
Inductive UrlInput : Type :=
| UrlString (s : string)
| UrlObj (u : UrlObject).

(** [type RouteOptions = { prefetch?: boolean, replace?: boolean,
    as?: UrlObject }].  [as] is a keyword here, hence [as_]; the two flags get
    an [opt_] prefix to keep them apart from the router's methods.  The
    declared type of [as] has no string form, unlike the url argument. *)
Record RouteOptions : Type := mkOptions {
  opt_prefetch : option bool;
  opt_replace : option bool;
  as_ : option UrlObject
}.

(** The default argument [options = {}] of [useRoute]. *)
Definition noOptions : RouteOptions := mkOptions None None None.

(** [type RouterContextValue = { currentRoute?: string,
    routePrefix?: string }]. *)
Record RouterContextValue : Type := mkContext {
  currentRoute : option string;
  routePrefix : option string
}.

(** [ProviderProps] without its [children]. *)
Record ProviderProps : Type := mkProps {
  props_route : option string;
  props_routePrefix : option string
}.

(** The result [{ route, alias }] of [getUrlObjects]. *)
Record UrlObjects : Type := mkUrlObjects {
  route : UrlObject;
  alias : UrlObject
}.

(** The part of [React.MouseEvent] the click handler can look at.  [button]
    is the event's own button number (1 is the middle button); the hook never
    reads it.  [nativeEvent] is optional because [wantsNewTab] guards it. *)
Record NativeEvent : Type := mkNative {
  which : Z
}.

Record MouseEvent : Type := mkEvent {
  metaKey : bool;
  ctrlKey : bool;
  shiftKey : bool;
  button : Z;
  nativeEvent : option NativeEvent
}.

(** * The imported modules

    [qs] (the query-string package) and [Router] (next/router) are not part of
    the repository; the hook is embedded over their interfaces. *)

Class QueryString : Type := {
  qs_stringify : Query -> string
}.

(** [Router.push] and [Router.replace] return a promise of the navigation's
    success. *)
Class NextRouter : Type := {
  Router_push : UrlObject -> UrlObject -> Settled bool;
  Router_replace : UrlObject -> UrlObject -> Settled bool
}.

(** The value of [changeType]: the name of the router method to call. *)
Inductive ChangeType : Type :=
| push
| replace.

(** * Effects *)

(** The calls the hook makes on the outside world. *)
Inductive Effect : Type :=
| E_preventDefault
| E_Router_change (changeType : ChangeType) (route alias : UrlObject)
| E_Router_prefetch (href : string)
| E_window_scrollTo (x y : Z)
| E_document_body_focus.

(** How a call ends: with a value, or with a thrown error (for an [async]
    function: a fulfilled or a rejected promise). *)
Inductive Completion (A : Type) : Type :=
| Normal (value : A)
| Thrown (message : string).

Arguments Normal {A} value.
Arguments Thrown {A} message.

(** A computation: the effects it performed, in order, and how it ended. *)
Definition Eff (A : Type) : Type := (list Effect * Completion A)%type.

Module EffMonad.

Definition ret {A : Type} (a : A) : Eff A := ([], Normal a).

Definition throw {A : Type} (message : string) : Eff A := ([], Thrown message).

Definition bind {A B : Type} (m : Eff A) (k : A -> Eff B) : Eff B :=
  match m with
  | (t, Normal a) => let (t', c) := k a in ((t ++ t')%list, c)
  | (t, Thrown e) => (t, Thrown e)
  end.

Definition perform (e : Effect) : Eff unit := ([e], Normal tt).

(** [await p]: the promise's value, or its rejection thrown. *)
Definition await {A : Type} (p : Settled A) : Eff A :=
  match p with
  | Fulfilled a => ret a
  | Rejected r => throw r
  end.

(** Calling an [async] function and dropping the promise it returns: what it
    does is done, how it ends is seen by nobody. *)
Definition detached {A : Type} (m : Eff A) : Eff unit := (fst m, Normal tt).

Declare Scope eff_scope.
Delimit Scope eff_scope with eff.

Notation "x <- m ;; k" := (bind m (fun x => k))
  (at level 61, m at next level, right associativity) : eff_scope.
Notation "m ;; k" := (bind m (fun _ => k))
  (at level 61, right associativity) : eff_scope.

End EffMonad.

Import EffMonad.
Local Open Scope eff_scope.

Definition effects {A : Type} (m : Eff A) : list Effect := fst m.
Definition completion {A : Type} (m : Eff A) : Completion A := snd m.

(** * The hook *)

Section Hook.

Context {qs : QueryString} {Router : NextRouter}.

(** ** Context carrier (lines 5, 33-44, 60-68) *)

(** The providers above a component, nearest first. *)
Definition Providers : Type := list RouterContextValue.

(** [<RouterContext.Provider value={{...}}>]: the children are rendered with
    one more provider above them. *)
Definition RouterProvider (props : ProviderProps) (outer : Providers)
    : Providers :=
  mkContext (props_route props) (props_routePrefix props) :: outer.

(** [useContext(RouterContext)]: the nearest provider's value, or the default
    [null] the context was created with. *)
Definition useContext (scope : Providers) : option RouterContextValue :=
  hd_error scope.

Definition missingContextMessage : string :=
  "Missing RouteContext. Did you forget to use <RouteProvider>?".

Definition useRouterContext (scope : Providers) : Eff RouterContextValue :=
  match useContext scope with
  | None => throw missingContextMessage
  | Some context => ret context
  end.

(** ** Route resolver (lines 46-49, 79-108) *)

Definition urlObjectToString (url : UrlObject) : string :=
  let query :=
    match query url with
    | Some q => "?" ++ qs_stringify q
    | None => ""
    end in
  pathname url ++ query.

Definition parseRoute (url : UrlInput) : UrlObject :=
  match url with
  | UrlString s => mkUrl s None
  | UrlObj u => u
  end.

Definition getUrlObjects (url : UrlInput) (options : RouteOptions)
    (prefix : option string) : UrlObjects :=
  let route := parseRoute url in
  let alias :=
    parseRoute (UrlObj match as_ options with
                       | Some a => a
                       | None => route
                       end) in
  {| route := mkUrl (pathname route) (query route);
     alias :=
       mkUrl (if truthy (ofOptString prefix)
              then match prefix with
                   | Some p => p ++ pathname alias
                   | None => pathname alias
                   end
              else pathname alias)
             (query route) |}.

(** ** Navigation dispatcher (lines 70-77, 121-133) *)

(** The value is only ever tested by [if], so it is kept as its truth
    value.  [e.nativeEvent && e.nativeEvent.which === 2] is falsy when the
    event has no [nativeEvent]. *)
Definition wantsNewTab (e : MouseEvent) : bool :=
  metaKey e
  || ctrlKey e
  || shiftKey e
  || match nativeEvent e with
     | Some n => which n =? 2
     | None => false
     end.

(** [Router[changeType]]: the method of that name. *)
Definition Router_method (changeType : ChangeType)
    : UrlObject -> UrlObject -> Settled bool :=
  match changeType with
  | push => Router_push
  | replace => Router_replace
  end.

(** [await Router[changeType](route, alias)]. *)
Definition Router_change (changeType : ChangeType) (route alias : UrlObject)
    : Eff bool :=
  perform (E_Router_change changeType route alias) ;;
  await (Router_method changeType route alias).

(** The closure [navigate] of [useRoute], over the variables it captures. *)
Definition navigate (changeType : ChangeType) (route alias : UrlObject)
    (shouldScroll : bool) : Eff unit :=
  success <- Router_change changeType route alias ;;
  if success && shouldScroll
  then perform (E_window_scrollTo 0 0) ;; perform E_document_body_focus
  else ret tt.

(** The closure [onClick] of [useRoute]; [navigate] is the closure above. *)
Definition onClick (navigate : Eff unit) (e : MouseEvent) : Eff unit :=
  if wantsNewTab e then ret tt
  else perform E_preventDefault ;; detached navigate.

(** ** Prefetch scheduler (lines 51-58) *)

(** The dependency array [[href, shouldPrefetch]]. *)
Definition Deps : Type := (string * bool)%type.

(** React runs an effect after the first render and after every render whose
    dependencies differ from those of the render before. *)
Definition depsChanged (previous : option Deps) (deps : Deps) : bool :=
  match previous with
  | None => true
  | Some (h, p) =>
      negb ((h =? fst deps)%string && Bool.eqb p (snd deps))
  end.

Definition useEffect (effect : Eff unit) (previous : option Deps)
    (deps : Deps) : Eff unit :=
  if depsChanged previous deps then effect else ret tt.

Definition usePrefetch (previous : option Deps) (href : string)
    (shouldPrefetch : bool) : Eff unit :=
  useEffect
    (if shouldPrefetch then perform (E_Router_prefetch href) else ret tt)
    previous (href, shouldPrefetch).

(** ** [useRoute] (lines 110-141) *)

Record RouteHandle : Type := mkHandle {
  h_onClick : MouseEvent -> Eff unit;
  href : string;
  isActive : JsValue;
  h_navigate : Eff unit
}.

(** [options.prefetch === true]. *)
Definition isTrue (o : option bool) : bool :=
  match o with
  | Some true => true
  | _ => false
  end.

(** [currentRoute && currentRoute.startsWith(pathname)]: the left operand
    itself when it is falsy, the right one otherwise. *)
Definition activeValue (currentRoute : option string) (pathname : string)
    : JsValue :=
  match currentRoute with
  | Some c =>
      if truthy (JsString c) then JsBool (startsWith c pathname)
      else JsString c
  | None => JsUndefined
  end.

(** One render of a component that calls [useRoute(url, options)] under
    [scope]; [previous] is the dependency array of the render before, if
    any.  The effects are those of this render's effect phase. *)
Definition useRoute (scope : Providers) (previous : option Deps)
    (url : UrlInput) (options : RouteOptions) : Eff RouteHandle :=
  context <- useRouterContext scope ;;
  let objects := getUrlObjects url options (routePrefix context) in
  let route := route objects in
  let alias := alias objects in
  let href := urlObjectToString route in
  let aliasHref := urlObjectToString alias in
  let shouldScroll := indexOf (pathname route) "#" <? 0 in
  let isActive := activeValue (currentRoute context) (pathname route) in
  let changeType := if isTrue (opt_replace options) then replace else push in
  usePrefetch previous href (isTrue (opt_prefetch options)) ;;
  let navigate := navigate changeType route alias shouldScroll in
  ret {| h_onClick := onClick navigate;
         href := aliasHref;
         isActive := isActive;
         h_navigate := navigate |}.

(** ** What a render derives from its arguments

    Names for the values [useRoute] computes on the way, as functions of the
    hook's arguments and of the context's prefix. *)

(** [changeType]. *)
Definition changeTypeOf (options : RouteOptions) : ChangeType :=
  if isTrue (opt_replace options) then replace else push.

(** [href = urlObjectToString(route)], the string handed to [usePrefetch]. *)
Definition canonicalHref (url : UrlInput) (options : RouteOptions)
    (prefix : option string) : string :=
  urlObjectToString (route (getUrlObjects url options prefix)).

(** [aliasHref = urlObjectToString(alias)], the string returned as [href]. *)
Definition displayedHref (url : UrlInput) (options : RouteOptions)
    (prefix : option string) : string :=
  urlObjectToString (alias (getUrlObjects url options prefix)).

(** What the router answers to the call [navigate] makes. *)
Definition routerAnswer (url : UrlInput) (options : RouteOptions)
    (prefix : option string) : Settled bool :=
  Router_method (changeTypeOf options)
    (route (getUrlObjects url options prefix))
    (alias (getUrlObjects url options prefix)).

(** The call itself, as it shows in the trace. *)
Definition routerCall (url : UrlInput) (options : RouteOptions)
    (prefix : option string) : Effect :=
  E_Router_change (changeTypeOf options)
    (route (getUrlObjects url options prefix))
    (alias (getUrlObjects url options prefix)).

End Hook.

(** The handle a render returned, if it returned. *)
Definition handleOf (m : Eff RouteHandle) : option RouteHandle :=
  match completion m with
  | Normal h => Some h
  | Thrown _ => None
  end.

(** * Instances to run the hook on

    Stand-ins for the two imported modules, to evaluate the definitions on
    concrete inputs.  [plainQs] writes [key=value] pairs joined by [&], in the
    order of the object and without escaping; it is not the query-string
    package, and no general statement below depends on it. *)

Module Sample.

Definition plainValue (v : JsValue) : string :=
  match v with
  | JsString s => s
  | JsBool true => "true"
  | JsBool false => "false"
  | _ => ""
  end.

Definition plainQs : QueryString :=
  {| qs_stringify := fun q =>
       String.concat "&" (map (fun kv => fst kv ++ "=" ++ plainValue (snd kv)) q) |}.

(** A router whose navigations all succeed. *)
Definition openRouter : NextRouter :=
  {| Router_push := fun _ _ => Fulfilled true;
     Router_replace := fun _ _ => Fulfilled true |}.

(** A router whose guard aborts every navigation. *)
Definition guardedRouter : NextRouter :=
  {| Router_push := fun _ _ => Fulfilled false;
     Router_replace := fun _ _ => Fulfilled false |}.

(** The hook over [plainQs] and [openRouter]. *)
Definition useRoute := @useRoute plainQs openRouter.

Definition dashboard : RouterContextValue :=
  mkContext (Some "/dashboard/projects/7") (Some "/dashboard").

Definition bare : RouterContextValue := mkContext None None.

Definition plainClick : MouseEvent := mkEvent false false false 0 (Some (mkNative 1)).
Definition ctrlClick : MouseEvent := mkEvent false true false 0 (Some (mkNative 1)).
Definition middleClick : MouseEvent := mkEvent false false false 1 (Some (mkNative 2)).
Definition middleClickNoNative : MouseEvent := mkEvent false false false 1 None.

End Sample.

(** * Vocabulary of the statements *)

(** [prefix ?? '']. *)
Definition orEmpty (prefix : option string) : string :=
  match prefix with
  | Some p => p
  | None => ""
  end.

(** [options.as ?? route]. *)
Definition aliasSource (url : UrlInput) (options : RouteOptions) : UrlObject :=
  match as_ options with
  | Some a => a
  | None => parseRoute url
  end.

(** "[currentRoute] is defined and starts with [pathname]". *)
Definition definedAndStartsWith (currentRoute : option string)
    (pathname : string) : bool :=
  match currentRoute with
  | Some c => startsWith c pathname
  | None => false
  end.

(** The new-tab intent of a click: a modifier key held, or the native event
    reporting the middle button. *)
Definition newTabIntent (e : MouseEvent) : Prop :=
  metaKey e = true \/ ctrlKey e = true \/ shiftKey e = true
  \/ exists n, nativeEvent e = Some n /\ which n = 2.

Definition noModifier (e : MouseEvent) : Prop :=
  metaKey e = false /\ ctrlKey e = false /\ shiftKey e = false.

(** The string has a [#] somewhere. *)
Definition hasFragmentMarker (s : string) : Prop :=
  In "#"%char (list_ascii_of_string s).

Definition isRouterChange (e : Effect) : bool :=
  match e with
  | E_Router_change _ _ _ => true
  | _ => false
  end.

Definition isPreventDefault (e : Effect) : bool :=
  match e with
  | E_preventDefault => true
  | _ => false
  end.

(** How many of the effects satisfy [p]. *)
Definition countEffects (p : Effect -> bool) (t : list Effect) : nat :=
  List.length (filter p t).

(** The scroll and focus reset of [navigate]. *)
Definition resetEffects : list Effect :=
  [E_window_scrollTo 0 0; E_document_body_focus].

(** ** Successive renders *)

(** The renders of a component that calls [usePrefetch(href, shouldPrefetch)],
    one pair of arguments per render: React hands the effect of each render
    the dependencies of the render before.  The result is the calls made, in
    order. *)
Fixpoint rerender (previous : option Deps) (renders : list Deps)
    : list Effect :=
  match renders with
  | [] => []
  | deps :: later =>
      (effects (usePrefetch previous (fst deps) (snd deps))
         ++ rerender (Some deps) later)%list
  end.

(** A router whose navigations end in an error. *)
Definition failingRouter : NextRouter :=
  {| Router_push := fun _ _ => Rejected "Route change aborted";
     Router_replace := fun _ _ => Rejected "Route change aborted" |}.

(** The query part [urlObjectToString] appends for a query. *)
Definition queryPart {qs : QueryString} (q : option Query) : string :=
  match q with
  | Some q => "?" ++ qs_stringify q
  | None => ""
  end.

(** * Strings *)

Lemma append_empty_r (s : string) : s ++ "" = s.
Proof.
  induction s as [|a s IH]; simpl; [reflexivity | now rewrite IH].
Qed.

Lemma append_length (s t : string) :
  String.length (s ++ t) = (String.length s + String.length t)%nat.
Proof.
  induction s as [|a s IH]; simpl; [reflexivity | now rewrite IH].
Qed.

(** Appending a non-empty string changes the string. *)
Lemma append_nonempty_neq (s t : string) : t <> "" -> s ++ t <> s.
Proof.
  intros Ht Heq.
  apply (f_equal String.length) in Heq.
  rewrite append_length in Heq.
  destruct t as [|a t]; [now apply Ht | simpl in Heq; lia].
Qed.

Lemma startsWith_spec (s p : string) :
  startsWith s p = true <-> exists rest, s = p ++ rest.
Proof.
  unfold startsWith. revert s.
  induction p as [|a p IH]; intros s; simpl.
  - destruct s; simpl; split; eauto.
  - destruct s as [|b s]; simpl.
    + split; [discriminate | intros [rest H]; discriminate].
    + destruct (ascii_dec a b) as [->|Hne].
      * rewrite IH. split; intros [rest H]; exists rest.
        -- now rewrite H.
        -- now injection H.
      * split; [discriminate | intros [rest H]].
        injection H as H1 _. now elim Hne.
Qed.

Lemma index_hash_none (s : string) :
  String.index 0 "#" s = None <-> ~ hasFragmentMarker s.
Proof.
  unfold hasFragmentMarker.
  induction s as [|b s IH];
    cbn [String.index String.prefix list_ascii_of_string In].
  - split; [intros _ [] | reflexivity].
  - destruct (ascii_dec "#" b) as [<-|Hne].
    + destruct s; split; try discriminate; intros H; elim H; now left.
    + destruct (String.index 0 "#" s) as [n|].
      * split; [discriminate | intros H].
        assert (Hs : ~ In "#"%char (list_ascii_of_string s))
          by (intros Hin; apply H; now right).
        apply IH in Hs. discriminate.
      * split; [intros _ [Hb | Hin] | reflexivity].
        -- now elim Hne.
        -- now apply (proj1 IH).
Qed.

(** [pathname.indexOf('#') < 0] says that the pathname has no [#]. *)
Lemma indexOf_hash_negative (s : string) :
  (indexOf s "#" <? 0) = true <-> ~ hasFragmentMarker s.
Proof.
  rewrite <- index_hash_none. unfold indexOf.
  destruct (String.index 0 "#" s) as [n|].
  - split; [intros H; apply Z.ltb_lt in H; lia | discriminate].
  - split; reflexivity.
Qed.

(** * The hook's building blocks *)

Section Properties.

Context {qs : QueryString} {Router : NextRouter}.

Lemma truthy_prefix_orEmpty (prefix : option string) (s : string) :
  (if truthy (ofOptString prefix)
   then match prefix with Some p => p ++ s | None => s end
   else s) = orEmpty prefix ++ s.
Proof.
  destruct prefix as [[|a p]|]; reflexivity.
Qed.

Lemma getUrlObjects_route (url : UrlInput) (options : RouteOptions)
    (prefix : option string) :
  route (getUrlObjects url options prefix) = parseRoute url.
Proof.
  unfold getUrlObjects. cbn [route]. now destruct (parseRoute url).
Qed.

Lemma urlObjectToString_query (p : string) (q : Query) :
  urlObjectToString (mkUrl p (Some q)) = p ++ "?" ++ qs_stringify q.
Proof. reflexivity. Qed.

Lemma urlObjectToString_no_query (p : string) :
  urlObjectToString (mkUrl p None) = p.
Proof. unfold urlObjectToString. cbn [query pathname]. apply append_empty_r. Qed.

Lemma wantsNewTab_spec (e : MouseEvent) :
  wantsNewTab e = true <-> newTabIntent e.
Proof.
  unfold wantsNewTab, newTabIntent.
  rewrite !orb_true_iff.
  split.
  - intros [[[H | H] | H] | H]; auto.
    destruct (nativeEvent e) as [n|]; [| discriminate].
    right; right; right. exists n. split; [reflexivity | now apply Z.eqb_eq].
  - intros [H | [H | [H | [n [Hn Hw]]]]]; auto.
    right. rewrite Hn. now apply Z.eqb_eq.
Qed.

Lemma usePrefetch_eq (previous : option Deps) (h : string) (should : bool) :
  usePrefetch previous h should =
  (if should && depsChanged previous (h, should)
   then [E_Router_prefetch h] else [], Normal tt).
Proof.
  unfold usePrefetch, useEffect.
  destruct should; cbn [andb];
    [destruct (depsChanged previous (h, true)) | destruct (depsChanged _ _)];
    reflexivity.
Qed.

Lemma navigate_eq (ct : ChangeType) (r a : UrlObject) (shouldScroll : bool) :
  navigate ct r a shouldScroll =
  match Router_method ct r a with
  | Fulfilled success =>
      (E_Router_change ct r a
         :: (if success && shouldScroll then resetEffects else []),
       Normal tt)
  | Rejected reason => ([E_Router_change ct r a], Thrown reason)
  end.
Proof.
  unfold navigate, Router_change.
  destruct (Router_method ct r a) as [success | reason]; cbn.
  - now destruct (success && shouldScroll).
  - reflexivity.
Qed.

Lemma navigate_one_router_call (ct : ChangeType) (r a : UrlObject)
    (shouldScroll : bool) :
  countEffects isRouterChange (effects (navigate ct r a shouldScroll)) = 1%nat.
Proof.
  rewrite navigate_eq.
  destruct (Router_method ct r a) as [success | reason]; [| reflexivity].
  now destruct (success && shouldScroll).
Qed.

Lemma navigate_no_preventDefault (ct : ChangeType) (r a : UrlObject)
    (shouldScroll : bool) :
  countEffects isPreventDefault (effects (navigate ct r a shouldScroll)) = 0%nat.
Proof.
  rewrite navigate_eq.
  destruct (Router_method ct r a) as [success | reason]; [| reflexivity].
  now destruct (success && shouldScroll).
Qed.

Lemma onClick_new_tab (nav : Eff unit) (e : MouseEvent) :
  wantsNewTab e = true -> onClick nav e = ([], Normal tt).
Proof. unfold onClick. now intros ->. Qed.

Lemma onClick_plain (nav : Eff unit) (e : MouseEvent) :
  wantsNewTab e = false ->
  onClick nav e = (E_preventDefault :: effects nav, Normal tt).
Proof. unfold onClick. now intros ->. Qed.

(** A render under a provider returns, and this is what it returns. *)
Lemma useRoute_in_scope (c : RouterContextValue) (rest : Providers)
    (previous : option Deps) (url : UrlInput) (options : RouteOptions) :
  useRoute (c :: rest) previous url options =
  ((if isTrue (opt_prefetch options)
       && depsChanged previous
            (canonicalHref url options (routePrefix c),
             isTrue (opt_prefetch options))
    then [E_Router_prefetch (canonicalHref url options (routePrefix c))]
    else []),
   Normal
     {| h_onClick :=
          onClick
            (navigate (changeTypeOf options)
               (route (getUrlObjects url options (routePrefix c)))
               (alias (getUrlObjects url options (routePrefix c)))
               (indexOf (pathname (parseRoute url)) "#" <? 0));
        href := displayedHref url options (routePrefix c);
        isActive := activeValue (currentRoute c) (pathname (parseRoute url));
        h_navigate :=
          navigate (changeTypeOf options)
            (route (getUrlObjects url options (routePrefix c)))
            (alias (getUrlObjects url options (routePrefix c)))
            (indexOf (pathname (parseRoute url)) "#" <? 0) |}).
Proof.
  unfold useRoute, useRouterContext, useContext.
  cbn [hd_error ret bind].
  rewrite usePrefetch_eq, getUrlObjects_route.
  unfold canonicalHref, displayedHref, changeTypeOf.
  rewrite getUrlObjects_route.
  now destruct (isTrue (opt_prefetch options) && depsChanged previous _).
Qed.

Lemma useRoute_no_scope (previous : option Deps) (url : UrlInput)
    (options : RouteOptions) :
  useRoute [] previous url options = ([], Thrown missingContextMessage).
Proof. reflexivity. Qed.

(** * Route resolution *)

(** C1: for every url (a string or an object), all options and every prefix,
    the alias' pathname is [(prefix ?? '')] followed by the pathname of
    [options.as] when it is given and of the route otherwise; the alias'
    query is the route's query, which is the query of the url and so never
    that of [options.as]; the route's pathname is the url's, without the
    prefix. *)
Theorem getUrlObjects_alias_invariant (url : UrlInput) (options : RouteOptions)
    (prefix : option string) :
  pathname (alias (getUrlObjects url options prefix))
    = orEmpty prefix ++ pathname (aliasSource url options)
  /\ query (alias (getUrlObjects url options prefix))
       = query (route (getUrlObjects url options prefix))
  /\ query (alias (getUrlObjects url options prefix)) = query (parseRoute url)
  /\ pathname (route (getUrlObjects url options prefix))
       = pathname (parseRoute url).
Proof.
  unfold getUrlObjects, aliasSource.
  cbn [alias route pathname query parseRoute].
  rewrite truthy_prefix_orEmpty.
  repeat split; reflexivity.
Qed.

(** C8, as amended: with the prefix [""] the resolution is the one with no
    prefix at all, so the alias' pathname is that of [options.as] when it is
    given and of the route otherwise; it is the route's pathname whenever
    [options.as] is not given. *)
Theorem empty_prefix_is_no_prefix (url : UrlInput) (options : RouteOptions) :
  getUrlObjects url options (Some "") = getUrlObjects url options None
  /\ pathname (alias (getUrlObjects url options (Some "")))
       = pathname (aliasSource url options)
  /\ (as_ options = None ->
      pathname (alias (getUrlObjects url options (Some "")))
        = pathname (route (getUrlObjects url options (Some "")))).
Proof.
  split; [reflexivity | split].
  - reflexivity.
  - intros Has. unfold getUrlObjects. now rewrite Has.
Qed.

(** C3, on the code: an object with a [query] gets the [?] whatever the query
    holds, the empty object included, so its string is never the bare
    pathname; only an object without [query] gives the pathname alone. *)
Theorem urlObjectToString_empty_query (p : string) :
  urlObjectToString (mkUrl p (Some [])) = p ++ "?" ++ qs_stringify []
  /\ urlObjectToString (mkUrl p (Some [])) <> p
  /\ urlObjectToString (mkUrl p None) = p.
Proof.
  split; [apply urlObjectToString_query | split].
  - rewrite urlObjectToString_query. now apply append_nonempty_neq.
  - apply urlObjectToString_no_query.
Qed.

(** C5, as amended: [isActive] is truthy exactly when [currentRoute] is a
    non-empty string that starts with the pathname of the url (the route's
    own, never the alias'); it is a boolean only then: for an undefined
    [currentRoute] it is [undefined], for the empty one the empty string. *)
Theorem isActive_value (c : RouterContextValue) (rest : Providers)
    (previous : option Deps) (url : UrlInput) (options : RouteOptions) :
  exists h,
    handleOf (useRoute (c :: rest) previous url options) = Some h
    /\ truthy (isActive h)
         = match currentRoute c with
           | Some cr =>
               negb (cr =? "")%string
               && startsWith cr (pathname (parseRoute url))
           | None => false
           end
    /\ (currentRoute c = None -> isActive h = JsUndefined)
    /\ (currentRoute c = Some "" -> isActive h = JsString "")
    /\ (forall cr, currentRoute c = Some cr -> cr <> "" ->
        isActive h = JsBool (startsWith cr (pathname (parseRoute url)))).
Proof.
  rewrite useRoute_in_scope. eexists. split; [reflexivity |].
  cbn [isActive]. unfold activeValue.
  destruct (currentRoute c) as [cr|].
  - cbn [truthy]. destruct (String.eqb_spec cr "") as [-> | Hne]; cbn.
    + repeat split; try discriminate. intros cr [= <-] H. now elim H.
    + repeat split; try discriminate.
      * intros [= ->]. now elim Hne.
      * now intros cr' [= <-] _.
  - repeat split; discriminate.
Qed.

(** * Context carrier *)

(** C9: the context lookup throws exactly when no provider is in scope, and
    then [useRoute] throws the same error before doing anything else; under a
    provider the lookup returns that provider's value and [useRoute] returns
    a handle; below a [RouterProvider] the lookup returns what the provider
    was given. *)
Theorem missing_context_iff_no_provider (scope : Providers)
    (previous : option Deps) (url : UrlInput) (options : RouteOptions) :
  (useRouterContext scope = ([], Thrown missingContextMessage) <-> scope = [])
  /\ ((exists message, completion (useRouterContext scope) = Thrown message)
      <-> scope = [])
  /\ (useRoute scope previous url options = ([], Thrown missingContextMessage)
      <-> scope = [])
  /\ ((exists message,
         completion (useRoute scope previous url options) = Thrown message)
      <-> scope = [])
  /\ match scope with
     | [] => True
     | c :: _ =>
         useRouterContext scope = ([], Normal c)
         /\ exists h, handleOf (useRoute scope previous url options) = Some h
     end
  /\ forall props,
       useRouterContext (RouterProvider props scope)
       = ([], Normal (mkContext (props_route props) (props_routePrefix props))).
Proof.
  destruct scope as [|c rest].
  - repeat split; eauto; intros _; eexists; reflexivity.
  - rewrite useRoute_in_scope.
    repeat split; try discriminate; try (intros [message H]; discriminate).
    eexists. reflexivity.
Qed.

(** * Prefetch scheduler *)

(** C2, as amended: the effect phase of a render calls [Router.prefetch] at
    most once, and only when [options.prefetch] is [true] and the pair of the
    string and the flag is new (always so on the first render); the string it
    passes is that of the route, [urlObjectToString(route)], built from the
    url alone.  That string is the handle's [href] when the context has no
    (or an empty) prefix and [options.as] is not given.  When
    [options.prefetch] is not [true] there is no call. *)
Theorem prefetch_called_with_canonical_href (c : RouterContextValue)
    (rest : Providers) (previous : option Deps) (url : UrlInput)
    (options : RouteOptions) :
  effects (useRoute (c :: rest) previous url options)
    = (if isTrue (opt_prefetch options)
          && depsChanged previous
               (canonicalHref url options (routePrefix c),
                isTrue (opt_prefetch options))
       then [E_Router_prefetch (canonicalHref url options (routePrefix c))]
       else [])
  /\ canonicalHref url options (routePrefix c)
       = urlObjectToString (parseRoute url)
  /\ (opt_prefetch options = Some true ->
      effects (useRoute (c :: rest) None url options)
        = [E_Router_prefetch (urlObjectToString (parseRoute url))])
  /\ (opt_prefetch options <> Some true ->
      effects (useRoute (c :: rest) previous url options) = [])
  /\ (truthy (ofOptString (routePrefix c)) = false ->
      as_ options = None ->
      option_map href (handleOf (useRoute (c :: rest) previous url options))
        = Some (urlObjectToString (parseRoute url))).
Proof.
  assert (Hc : canonicalHref url options (routePrefix c)
               = urlObjectToString (parseRoute url))
    by (unfold canonicalHref; now rewrite getUrlObjects_route).
  rewrite !useRoute_in_scope. cbn [effects fst].
  split; [reflexivity | split; [exact Hc | split; [| split]]].
  - intros Hp. rewrite Hp. cbn [isTrue andb depsChanged]. now rewrite Hc.
  - intros Hp.
    destruct (opt_prefetch options) as [[|]|]; try reflexivity. now elim Hp.
  - intros Hprefix Has. unfold handleOf. cbn. f_equal.
    unfold displayedHref, getUrlObjects. rewrite Has, Hprefix.
    cbn [alias parseRoute]. now destruct (parseRoute url).
Qed.

(** * Navigation dispatcher *)

Lemma navigate_reset_iff (ct : ChangeType) (r a : UrlObject)
    (shouldScroll : bool) (e : Effect) :
  In e resetEffects ->
  In e (effects (navigate ct r a shouldScroll))
  <-> Router_method ct r a = Fulfilled true /\ shouldScroll = true.
Proof.
  intros He. rewrite navigate_eq.
  destruct (Router_method ct r a) as [[|] | reason], shouldScroll;
    cbn [effects fst andb]; split;
    try (intros [H1 H2]; discriminate);
    try (intros _; now right);
    try (intros _; split; reflexivity);
    intros [<- | []]; destruct He as [He | [He | []]]; discriminate.
Qed.

(** C6: on a click with new-tab intent (meta, ctrl or shift held, or the
    middle button as the native event reports it) the handler does nothing:
    no [preventDefault], no router call.  On every other click it calls
    [preventDefault] and then does what one call of [navigate] does, which
    holds exactly one call of the router. *)
Theorem onClick_new_tab_or_navigate (c : RouterContextValue)
    (rest : Providers) (previous : option Deps) (url : UrlInput)
    (options : RouteOptions) :
  exists h,
    handleOf (useRoute (c :: rest) previous url options) = Some h
    /\ forall e,
         (newTabIntent e -> h_onClick h e = ([], Normal tt))
         /\ (~ newTabIntent e ->
             h_onClick h e
               = (E_preventDefault :: effects (h_navigate h), Normal tt)
             /\ countEffects isPreventDefault (effects (h_onClick h e)) = 1%nat
             /\ countEffects isRouterChange (effects (h_onClick h e)) = 1%nat).
Proof.
  rewrite useRoute_in_scope. eexists. split; [reflexivity |].
  intros e. cbn [h_onClick h_navigate]. split.
  - intros H. now apply onClick_new_tab, wantsNewTab_spec.
  - intros H.
    assert (Hw : wantsNewTab e = false).
    { destruct (wantsNewTab e) eqn:E; [| reflexivity].
      now apply wantsNewTab_spec in E. }
    rewrite (onClick_plain _ _ Hw). split; [reflexivity |].
    unfold countEffects. cbn [effects fst filter isPreventDefault
                              isRouterChange List.length].
    split; f_equal.
    + apply navigate_no_preventDefault.
    + apply navigate_one_router_call.
Qed.

(** C7: [navigate] resets the scroll position and the focus exactly when the
    router answers [true] and the route's pathname has no [#]; it calls the
    router once; when the router answers [false] that call is all it does,
    and it returns normally. *)
Theorem navigate_resets_iff_success_without_fragment (c : RouterContextValue)
    (rest : Providers) (previous : option Deps) (url : UrlInput)
    (options : RouteOptions) :
  exists h,
    handleOf (useRoute (c :: rest) previous url options) = Some h
    /\ (In (E_window_scrollTo 0 0) (effects (h_navigate h))
        <-> routerAnswer url options (routePrefix c) = Fulfilled true
            /\ ~ hasFragmentMarker (pathname (parseRoute url)))
    /\ (In E_document_body_focus (effects (h_navigate h))
        <-> routerAnswer url options (routePrefix c) = Fulfilled true
            /\ ~ hasFragmentMarker (pathname (parseRoute url)))
    /\ (routerAnswer url options (routePrefix c) = Fulfilled false ->
        h_navigate h = ([routerCall url options (routePrefix c)], Normal tt))
    /\ countEffects isRouterChange (effects (h_navigate h)) = 1%nat.
Proof.
  rewrite useRoute_in_scope. eexists. split; [reflexivity |].
  cbn [h_navigate]. unfold routerAnswer, routerCall.
  rewrite <- indexOf_hash_negative.
  split; [apply navigate_reset_iff; now left |].
  split; [apply navigate_reset_iff; right; now left |].
  split; [| apply navigate_one_router_call].
  intros H. rewrite navigate_eq, H. reflexivity.
Qed.

(** C10: a click with no modifier held and no [nativeEvent] is handled as a
    plain click, [preventDefault] then [navigate], whatever button the event
    itself names; and a click with no modifier held counts as a new-tab click
    only if its [nativeEvent] is there and has [which = 2]. *)
Theorem middle_button_needs_nativeEvent (c : RouterContextValue)
    (rest : Providers) (previous : option Deps) (url : UrlInput)
    (options : RouteOptions) :
  exists h,
    handleOf (useRoute (c :: rest) previous url options) = Some h
    /\ (forall e, noModifier e -> nativeEvent e = None ->
        h_onClick h e
          = (E_preventDefault :: effects (h_navigate h), Normal tt))
    /\ (forall e, noModifier e -> wantsNewTab e = true ->
        exists n, nativeEvent e = Some n /\ which n = 2).
Proof.
  rewrite useRoute_in_scope. eexists. split; [reflexivity |].
  cbn [h_onClick h_navigate]. split.
  - intros e (Hm & Hc & Hs) Hn. apply onClick_plain.
    unfold wantsNewTab. now rewrite Hm, Hc, Hs, Hn.
  - intros e (Hm & Hc & Hs) Hw. apply wantsNewTab_spec in Hw.
    destruct Hw as [H | [H | [H | H]]];
      [congruence | congruence | congruence | exact H].
Qed.

End Properties.

(** * Runs on concrete inputs *)

(** [useRoute('/projects')] under [routePrefix="/dashboard"]. *)
Example href_under_prefix :
  option_map href
    (handleOf (Sample.useRoute [Sample.dashboard] None
                 (UrlString "/projects") noOptions))
  = Some "/dashboard/projects".
Proof. reflexivity. Qed.

(** [useRoute({pathname: '/project/details', query: {id: '42'}})]. *)
Example href_with_query :
  option_map href
    (handleOf (Sample.useRoute [Sample.bare] None
                 (UrlObj (mkUrl "/project/details"
                            (Some [("id", JsString "42")]))) noOptions))
  = Some "/project/details?id=42".
Proof. reflexivity. Qed.

(** [useRoute({pathname: '/x', query: {}})]: the [?] is there. *)
Example href_with_empty_query :
  option_map href
    (handleOf (Sample.useRoute [Sample.bare] None
                 (UrlObj (mkUrl "/x" (Some []))) noOptions))
  = Some "/x?".
Proof. reflexivity. Qed.

(** A pathname with a fragment: the router is called, nothing is reset. *)
Example navigate_to_fragment :
  option_map h_navigate
    (handleOf (Sample.useRoute [Sample.bare] None
                 (UrlString "/docs#install") noOptions))
  = Some ([E_Router_change push (mkUrl "/docs#install" None)
             (mkUrl "/docs#install" None)], Normal tt).
Proof. reflexivity. Qed.

(** C2, counterexample: under the prefix ["/dashboard"] the prefetch of
    ['/projects'] is called with ["/projects"], while the handle's [href] is
    ["/dashboard/projects"]. *)
Lemma prefetch_href_counterexample :
  exists h,
    handleOf (Sample.useRoute [Sample.dashboard] None (UrlString "/projects")
                (mkOptions (Some true) None None)) = Some h
    /\ href h = "/dashboard/projects"
    /\ effects (Sample.useRoute [Sample.dashboard] None (UrlString "/projects")
                  (mkOptions (Some true) None None))
         = [E_Router_prefetch "/projects"]
    /\ effects (Sample.useRoute [Sample.dashboard] None (UrlString "/projects")
                  (mkOptions (Some true) None None))
         <> [E_Router_prefetch (href h)].
Proof.
  eexists. split; [reflexivity |]. repeat split. discriminate.
Qed.

(** C5, counterexample: with no [currentRoute] the value of [isActive] is
    [undefined], not [false]; and with [currentRoute = ''] and the pathname
    [''], where a defined [currentRoute] starts with the pathname, [isActive]
    is the empty string, which is falsy. *)
Lemma isActive_counterexample :
  (exists h,
     handleOf (Sample.useRoute [Sample.bare] None (UrlString "/projects")
                 noOptions) = Some h
     /\ isActive h = JsUndefined
     /\ isActive h <> JsBool (definedAndStartsWith None "/projects"))
  /\ (exists h,
        handleOf (Sample.useRoute [mkContext (Some "") None] None
                    (UrlString "") noOptions) = Some h
        /\ definedAndStartsWith (Some "") "" = true
        /\ truthy (isActive h) = false).
Proof.
  split; eexists; (split; [reflexivity |]); repeat split. discriminate.
Qed.

(** C8, counterexample: with the prefix [""] and [as: {pathname: '/b'}] the
    alias' pathname of ['/a'] is ["/b"], not the route's ["/a"]. *)
Lemma empty_prefix_counterexample :
  pathname (alias (getUrlObjects (UrlString "/a")
                     (mkOptions None None (Some (mkUrl "/b" None)))
                     (Some ""))) = "/b"
  /\ pathname (route (getUrlObjects (UrlString "/a")
                        (mkOptions None None (Some (mkUrl "/b" None)))
                        (Some ""))) = "/a"
  /\ pathname (alias (getUrlObjects (UrlString "/a")
                        (mkOptions None None (Some (mkUrl "/b" None)))
                        (Some "")))
     <> pathname (route (getUrlObjects (UrlString "/a")
                           (mkOptions None None (Some (mkUrl "/b" None)))
                           (Some ""))).
Proof.
  repeat split. discriminate.
Qed.

(** [prefetch_called_with_canonical_href] at ['/settings'] with
    [{prefetch: true}], first render. *)
Lemma prefetch_called_with_canonical_href_witness :
  effects (Sample.useRoute [Sample.bare] None (UrlString "/settings")
             (mkOptions (Some true) None None))
  = [E_Router_prefetch "/settings"].
Proof.
  apply (proj1 (proj2 (proj2
    (@prefetch_called_with_canonical_href Sample.plainQs Sample.openRouter
       Sample.bare [] None (UrlString "/settings")
       (mkOptions (Some true) None None))))).
  reflexivity.
Defined.

(** [isActive_value] where the context has no [currentRoute]. *)
Lemma isActive_value_witness :
  exists h,
    handleOf (Sample.useRoute [Sample.bare] None (UrlString "/projects")
                noOptions) = Some h
    /\ isActive h = JsUndefined.
Proof.
  destruct (@isActive_value Sample.plainQs Sample.openRouter Sample.bare []
              None (UrlString "/projects") noOptions)
    as [h [Hh [_ [Hnone _]]]].
  exists h. split; [exact Hh | apply Hnone; reflexivity].
Defined.

(** [empty_prefix_is_no_prefix] at ['/projects'] with no options. *)
Lemma empty_prefix_is_no_prefix_witness :
  pathname (alias (getUrlObjects (UrlString "/projects") noOptions (Some "")))
  = pathname (route (getUrlObjects (UrlString "/projects") noOptions
                       (Some ""))).
Proof.
  apply (proj2 (proj2
    (empty_prefix_is_no_prefix (UrlString "/projects") noOptions))).
  reflexivity.
Defined.

(** [onClick_new_tab_or_navigate] at a ctrl-click, at a middle-button click
    and at a plain click. *)
Lemma onClick_new_tab_or_navigate_witness :
  exists h,
    handleOf (Sample.useRoute [Sample.dashboard] None (UrlString "/projects")
                noOptions) = Some h
    /\ h_onClick h Sample.ctrlClick = ([], Normal tt)
    /\ h_onClick h Sample.middleClick = ([], Normal tt)
    /\ h_onClick h Sample.plainClick
         = (E_preventDefault :: effects (h_navigate h), Normal tt).
Proof.
  destruct (@onClick_new_tab_or_navigate Sample.plainQs Sample.openRouter
              Sample.dashboard [] None (UrlString "/projects") noOptions)
    as [h [Hh He]].
  exists h. split; [exact Hh | split; [| split]].
  - apply (proj1 (He Sample.ctrlClick)). right. left. reflexivity.
  - apply (proj1 (He Sample.middleClick)). right. right. right.
    exists (mkNative 2). split; reflexivity.
  - apply (proj2 (He Sample.plainClick)).
    intros [H | [H | [H | [n [Hn Hw]]]]]; try discriminate.
    injection Hn as <-. discriminate.
Defined.

(** [navigate_resets_iff_success_without_fragment] with a router whose guard
    aborts the navigation. *)
Lemma navigate_resets_iff_success_without_fragment_witness :
  exists h,
    handleOf (@useRoute Sample.plainQs Sample.guardedRouter [Sample.bare] None
                (UrlString "/projects") noOptions) = Some h
    /\ h_navigate h
         = ([E_Router_change push (mkUrl "/projects" None)
               (mkUrl "/projects" None)], Normal tt).
Proof.
  destruct (@navigate_resets_iff_success_without_fragment Sample.plainQs
              Sample.guardedRouter Sample.bare [] None (UrlString "/projects")
              noOptions)
    as [h [Hh [_ [_ [Hfalse _]]]]].
  exists h. split; [exact Hh | apply Hfalse; reflexivity].
Defined.

(** [middle_button_needs_nativeEvent] at a middle-button click ([button = 1])
    that carries no [nativeEvent]. *)
Lemma middle_button_needs_nativeEvent_witness :
  exists h,
    handleOf (Sample.useRoute [Sample.bare] None (UrlString "/projects")
                noOptions) = Some h
    /\ button Sample.middleClickNoNative = 1
    /\ h_onClick h Sample.middleClickNoNative
         = (E_preventDefault :: effects (h_navigate h), Normal tt).
Proof.
  destruct (@middle_button_needs_nativeEvent Sample.plainQs Sample.openRouter
              Sample.bare [] None (UrlString "/projects") noOptions)
    as [h [Hh [Hplain _]]].
  exists h. split; [exact Hh | split; [reflexivity |]].
  apply Hplain; [repeat split | reflexivity].
Defined.

(** * Further properties of the hook *)

Lemma append_assoc (s t u : string) : (s ++ t) ++ u = s ++ (t ++ u).
Proof.
  induction s as [|a s IH]; simpl; [reflexivity | now rewrite IH].
Qed.

Lemma depsChanged_same (deps : Deps) : depsChanged (Some deps) deps = false.
Proof.
  destruct deps as [h p]. cbn.
  now rewrite String.eqb_refl, Bool.eqb_reflx.
Qed.

Section Further.

Context {qs : QueryString} {Router : NextRouter}.

Lemma displayedHref_eq (url : UrlInput) (options : RouteOptions)
    (prefix : option string) :
  displayedHref url options prefix
  = orEmpty prefix ++ pathname (aliasSource url options)
      ++ queryPart (query (parseRoute url)).
Proof.
  unfold displayedHref, urlObjectToString, getUrlObjects, aliasSource,
    queryPart.
  cbn [alias pathname query parseRoute].
  rewrite truthy_prefix_orEmpty. apply append_assoc.
Qed.

(** ** Route resolver *)

(** X1: the hook reads its url only through [parseRoute]: a string is the
    object with that pathname and no query, and an object stands for
    itself. *)
Theorem useRoute_string_is_object (scope : Providers) (previous : option Deps)
    (url : UrlInput) (options : RouteOptions) (p : string) :
  useRoute scope previous url options
    = useRoute scope previous (UrlObj (parseRoute url)) options
  /\ useRoute scope previous (UrlString p) options
       = useRoute scope previous (UrlObj (mkUrl p None)) options.
Proof. split; reflexivity. Qed.

(** X2: the string of a url given as a string is that string again. *)
Theorem urlObjectToString_parseRoute_string (s : string) :
  urlObjectToString (parseRoute (UrlString s)) = s.
Proof. cbn [parseRoute]. apply urlObjectToString_no_query. Qed.

(** X3: the [href] of the handle is the prefix, then the pathname of
    [options.as] (of the url when [as] is not given), then the query part of
    the url; a query of [options.as] never shows. *)
Theorem href_composition (c : RouterContextValue) (rest : Providers)
    (previous : option Deps) (url : UrlInput) (options : RouteOptions) :
  option_map href (handleOf (useRoute (c :: rest) previous url options))
  = Some (orEmpty (routePrefix c) ++ pathname (aliasSource url options)
            ++ queryPart (query (parseRoute url))).
Proof.
  rewrite useRoute_in_scope.
  unfold handleOf, completion. cbn [snd option_map href].
  now rewrite displayedHref_eq.
Qed.

(** X4: under a provider with a prefix, the [href] of every handle starts
    with that prefix. *)
Theorem href_starts_with_prefix (c : RouterContextValue) (rest : Providers)
    (previous : option Deps) (url : UrlInput) (options : RouteOptions)
    (prefix : string) :
  routePrefix c = Some prefix ->
  exists h,
    handleOf (useRoute (c :: rest) previous url options) = Some h
    /\ startsWith (href h) prefix = true.
Proof.
  intros Hp. rewrite useRoute_in_scope. eexists. split; [reflexivity |].
  cbn [href]. rewrite displayedHref_eq, Hp. cbn [orEmpty].
  apply startsWith_spec. eexists. reflexivity.
Qed.

(** X5: [isActive] is [true] for a non-empty [currentRoute] exactly when
    [currentRoute] is the url's pathname followed by anything, a segment
    boundary or not. *)
Theorem isActive_true_iff_extension (c : RouterContextValue)
    (rest : Providers) (previous : option Deps) (url : UrlInput)
    (options : RouteOptions) (current : string) :
  currentRoute c = Some current ->
  current <> "" ->
  exists h,
    handleOf (useRoute (c :: rest) previous url options) = Some h
    /\ (isActive h = JsBool true
        <-> exists more, current = pathname (parseRoute url) ++ more).
Proof.
  intros Hc Hne. rewrite useRoute_in_scope. eexists. split; [reflexivity |].
  cbn [isActive]. unfold activeValue. rewrite Hc. cbn [truthy].
  destruct (String.eqb_spec current "") as [-> | _]; [now elim Hne |].
  cbn [negb]. rewrite <- startsWith_spec.
  split; [now intros [= ->] | now intros ->].
Qed.

(** ** Context carrier *)

(** X6: a [RouterProvider] takes nothing from the providers above it: what
    [useRoute] gives below it is what it gives below that provider alone, and
    the prefix in force is the one of its props (none when it has none). *)
Theorem nearest_provider_only (props : ProviderProps) (outer : Providers)
    (previous : option Deps) (url : UrlInput) (options : RouteOptions) :
  useRoute (RouterProvider props outer) previous url options
    = useRoute (RouterProvider props []) previous url options
  /\ option_map href
       (handleOf (useRoute (RouterProvider props outer) previous url options))
     = Some (orEmpty (props_routePrefix props)
               ++ pathname (aliasSource url options)
               ++ queryPart (query (parseRoute url))).
Proof.
  split; [reflexivity |].
  unfold RouterProvider. rewrite useRoute_in_scope.
  unfold handleOf, completion. cbn [snd option_map href].
  now rewrite displayedHref_eq.
Qed.

(** ** Navigation dispatcher *)

(** X7: [navigate] calls the router once: [Router.replace] when
    [options.replace] is [true] and [Router.push] otherwise, with the url's
    own route first and, second, an alias whose string is the handle's
    [href]. *)
Theorem navigate_router_call (c : RouterContextValue) (rest : Providers)
    (previous : option Deps) (url : UrlInput) (options : RouteOptions) :
  exists h a,
    handleOf (useRoute (c :: rest) previous url options) = Some h
    /\ filter isRouterChange (effects (h_navigate h))
         = [E_Router_change
              (match opt_replace options with
               | Some true => replace
               | _ => push
               end)
              (parseRoute url) a]
    /\ hd_error (effects (h_navigate h))
         = Some (E_Router_change
                   (match opt_replace options with
                    | Some true => replace
                    | _ => push
                    end)
                   (parseRoute url) a)
    /\ urlObjectToString a = href h.
Proof.
  rewrite useRoute_in_scope. eexists.
  exists (alias (getUrlObjects url options (routePrefix c))).
  split; [reflexivity |].
  cbn [h_navigate href]. rewrite navigate_eq, getUrlObjects_route.
  unfold changeTypeOf, isTrue, displayedHref.
  destruct (opt_replace options) as [[|]|];
    (destruct (Router_method _ _ _) as [success | reason];
     [destruct (success && _) |]; repeat split; reflexivity).
Qed.

(** X8: when the router's promise is rejected, [navigate] is rejected with
    the same reason after the router call alone, with no reset; a plain click
    still returns normally, its trace being [preventDefault] and that
    call. *)
Theorem navigate_rejection (c : RouterContextValue) (rest : Providers)
    (previous : option Deps) (url : UrlInput) (options : RouteOptions)
    (reason : string) :
  routerAnswer url options (routePrefix c) = Rejected reason ->
  exists h,
    handleOf (useRoute (c :: rest) previous url options) = Some h
    /\ h_navigate h
         = ([routerCall url options (routePrefix c)], Thrown reason)
    /\ forall e, wantsNewTab e = false ->
         h_onClick h e
           = ([E_preventDefault; routerCall url options (routePrefix c)],
              Normal tt).
Proof.
  intros Hr. rewrite useRoute_in_scope. eexists. split; [reflexivity |].
  cbn [h_navigate h_onClick]. unfold routerAnswer in Hr. unfold routerCall.
  rewrite navigate_eq, Hr. split; [reflexivity |].
  intros e He. now rewrite (onClick_plain _ _ He).
Qed.

(** X9: after a successful navigation to a pathname without [#], the trace
    of [navigate] is the router call, then [scrollTo(0, 0)], then the focus
    of the body, and nothing else; with a [#] in the pathname it is the
    router call alone, whatever the router answers. *)
Theorem navigate_trace (c : RouterContextValue) (rest : Providers)
    (previous : option Deps) (url : UrlInput) (options : RouteOptions) :
  exists h,
    handleOf (useRoute (c :: rest) previous url options) = Some h
    /\ (routerAnswer url options (routePrefix c) = Fulfilled true ->
        ~ hasFragmentMarker (pathname (parseRoute url)) ->
        h_navigate h
          = ([routerCall url options (routePrefix c);
              E_window_scrollTo 0 0; E_document_body_focus], Normal tt))
    /\ (hasFragmentMarker (pathname (parseRoute url)) ->
        effects (h_navigate h) = [routerCall url options (routePrefix c)]).
Proof.
  rewrite useRoute_in_scope. eexists. split; [reflexivity |].
  cbn [h_navigate]. unfold routerAnswer, routerCall. rewrite navigate_eq.
  split.
  - intros -> Hno. apply indexOf_hash_negative in Hno. now rewrite Hno.
  - intros Hfrag.
    destruct (indexOf (pathname (parseRoute url)) "#" <? 0) eqn:E.
    + apply indexOf_hash_negative in E. now elim E.
    + destruct (Router_method _ _ _) as [success | reason];
        [rewrite andb_false_r |]; reflexivity.
Qed.

(** ** Prefetch scheduler *)

(** X10: a render that follows one with the same url and the same prefetch
    flag calls no prefetch, whatever has changed in the context, in [as] or
    in [replace]. *)
Theorem rerender_same_url_no_prefetch (c c' : RouterContextValue)
    (rest rest' : Providers) (url : UrlInput) (options options' : RouteOptions) :
  isTrue (opt_prefetch options') = isTrue (opt_prefetch options) ->
  effects
    (useRoute (c' :: rest')
       (Some (canonicalHref url options (routePrefix c),
              isTrue (opt_prefetch options)))
       url options')
  = [].
Proof.
  intros Hflag. rewrite useRoute_in_scope. cbn [effects fst].
  unfold canonicalHref. rewrite !getUrlObjects_route, Hflag.
  now rewrite depsChanged_same, andb_false_r.
Qed.

(** X11: however often a component renders with the same href and the flag
    on, starting from its first render, the prefetch is called once; with the
    flag off in every render it is never called. *)
Theorem rerender_prefetches_once (h : string) (n : nat) (previous : option Deps)
    (renders : list Deps) :
  rerender None (repeat (h, true) (S n)) = [E_Router_prefetch h]
  /\ (Forall (fun deps => snd deps = false) renders ->
      rerender previous renders = []).
Proof.
  split.
  - cbn [repeat rerender fst snd]. rewrite usePrefetch_eq. cbn.
    f_equal. induction n as [|n IH]; [reflexivity |].
    cbn [repeat rerender fst snd]. rewrite usePrefetch_eq, depsChanged_same.
    exact IH.
  - revert previous.
    induction renders as [|[h' p] later IH]; intros previous Hoff;
      [reflexivity |].
    inversion Hoff as [|d l Hp Hlater]; subst. cbn in Hp. subst p.
    cbn [rerender fst snd]. rewrite usePrefetch_eq. cbn. now apply IH.
Qed.

End Further.

(** [href_starts_with_prefix] at ['/projects'] under ["/dashboard"]. *)
Lemma href_starts_with_prefix_witness :
  exists h,
    handleOf (Sample.useRoute [Sample.dashboard] None (UrlString "/projects")
                noOptions) = Some h
    /\ startsWith (href h) "/dashboard" = true.
Proof.
  apply (@href_starts_with_prefix Sample.plainQs Sample.openRouter
           Sample.dashboard [] None (UrlString "/projects") noOptions
           "/dashboard").
  reflexivity.
Defined.

(** [isActive_true_iff_extension] with the current route ["/projects"] and
    the url ['/project']. *)
Lemma isActive_true_iff_extension_witness :
  exists h,
    handleOf (Sample.useRoute [mkContext (Some "/projects") None] None
                (UrlString "/project") noOptions) = Some h
    /\ (isActive h = JsBool true
        <-> exists more, "/projects" = "/project" ++ more).
Proof.
  apply (@isActive_true_iff_extension Sample.plainQs Sample.openRouter
           (mkContext (Some "/projects") None) [] None (UrlString "/project")
           noOptions "/projects").
  - reflexivity.
  - discriminate.
Defined.

(** [navigate_rejection] over the router that fails. *)
Lemma navigate_rejection_witness :
  exists h,
    handleOf (@useRoute Sample.plainQs failingRouter [Sample.bare] None
                (UrlString "/projects") noOptions) = Some h
    /\ h_navigate h
         = ([E_Router_change push (mkUrl "/projects" None)
               (mkUrl "/projects" None)], Thrown "Route change aborted")
    /\ h_onClick h Sample.plainClick
         = ([E_preventDefault;
             E_Router_change push (mkUrl "/projects" None)
               (mkUrl "/projects" None)], Normal tt).
Proof.
  destruct (@navigate_rejection Sample.plainQs failingRouter Sample.bare []
              None (UrlString "/projects") noOptions "Route change aborted")
    as [h [Hh [Hnav Hclick]]]; [reflexivity |].
  exists h. split; [exact Hh | split; [exact Hnav |]].
  apply Hclick. reflexivity.
Defined.

(** [navigate_trace] at ['/projects'] over the router that succeeds. *)
Lemma navigate_trace_witness :
  exists h,
    handleOf (Sample.useRoute [Sample.bare] None (UrlString "/projects")
                noOptions) = Some h
    /\ h_navigate h
         = ([E_Router_change push (mkUrl "/projects" None)
               (mkUrl "/projects" None);
             E_window_scrollTo 0 0; E_document_body_focus], Normal tt).
Proof.
  destruct (@navigate_trace Sample.plainQs Sample.openRouter Sample.bare []
              None (UrlString "/projects") noOptions)
    as [h [Hh [Hok _]]].
  exists h. split; [exact Hh |].
  apply Hok; [reflexivity |].
  apply indexOf_hash_negative. reflexivity.
Defined.

(** [rerender_same_url_no_prefetch]: ['/settings'] with [{prefetch: true}],
    rendered again after the prefix has changed. *)
Lemma rerender_same_url_no_prefetch_witness :
  effects
    (Sample.useRoute [Sample.dashboard]
       (Some ("/settings", true))
       (UrlString "/settings") (mkOptions (Some true) (Some true) None))
  = [].
Proof.
  apply (@rerender_same_url_no_prefetch Sample.plainQs Sample.openRouter
           Sample.bare Sample.dashboard [] [] (UrlString "/settings")
           (mkOptions (Some true) None None)
           (mkOptions (Some true) (Some true) None)).
  reflexivity.
Defined.

(** [rerender_prefetches_once]: three renders with the flag off. *)
Lemma rerender_prefetches_once_witness :
  rerender None [("/a", false); ("/b", false); ("/a", false)] = [].
Proof.
  apply (proj2 (rerender_prefetches_once "/a" 0 None
                  [("/a", false); ("/b", false); ("/a", false)])).
  repeat constructor.
Defined.
